(** * The AWS node-deletion step ([pkg/workflows/steps/amazon/delete_machine.go])

    A shallow embedding of [DeleteNodeStep] and of the parts of its
    collaborators that [Run] touches: the error values of [pkg/errors], the
    EC2 request and response structures, the three-method [instanceDeleter]
    interface and the two loggers.

    Go pointers that may be [nil] are [option]s, Go slices are lists, the Go
    [error] interface is [option error] ([None] is [nil]).  A step runs in a
    small monad that threads the memory the step can reach, records every
    logger and provider call in order, and can stop with a runtime panic. *)

From Stdlib Require Import String List Bool Arith Lia.
Import ListNotations.
Open Scope string_scope.
Open Scope list_scope.

(** ** Error values ([github.com/pkg/errors]) *)

(** Modelled from the spec: the package-level error variables
    [ErrAuthorization] and [ErrDeleteNode] are declared in another file of
    package [amazon]; only their uses are in [delete_machine.go].  The spec
    names them as the classification tags "Authorization" and "DeleteNode"
    (lookup failure) and calls them distinguishable, so they are two distinct
    values here, as two package variables that each hold their own
    [errors.New] result are in Go.  [errorString] stands for every error
    value made elsewhere (the SDK, a test double); [withMessage] is what
    [errors.Wrap] and [errors.Wrapf] build (their stack trace is not
    modelled). *)
Inductive error : Type :=
| ErrAuthorization
| ErrDeleteNode
| errorString (text : string)
| withMessage (cause : error) (msg : string).

Section Errors.

(** The texts of the two package variables are not in the sources. *)
Variables ErrAuthorization_text ErrDeleteNode_text : string.

(** [err.Error()] *)
Fixpoint Error (err : error) : string :=
  match err with
  | ErrAuthorization => ErrAuthorization_text
  | ErrDeleteNode => ErrDeleteNode_text
  | errorString text => text
  | withMessage cause msg => (msg ++ ": " ++ Error cause)%string
  end.

End Errors.

Module errors.

(** [errors.Cause(err)]: follow the chain of wrappers down to the first error
    that is not one. *)
Fixpoint Cause (err : error) : error :=
  match err with
  | withMessage cause _ => Cause cause
  | _ => err
  end.

(** [errors.Wrap(err, message)]: [nil] stays [nil]. *)
Definition Wrap (err : option error) (message : string) : option error :=
  match err with
  | None => None
  | Some e => Some (withMessage e message)
  end.

(** [errors.Wrapf(err, format, args...)], given the already formatted
    message [fmt.Sprintf(format, args...)]. *)
Definition Wrapf (err : option error) (formatted : string) : option error :=
  Wrap err formatted.

End errors.

(** ** EC2 structures ([aws-sdk-go/service/ec2]), the fields the step uses *)

Module ec2.

Record Instance : Type := {
  InstanceId : option string;               (* *string *)
  SpotInstanceRequestId : option string     (* *string *)
}.

Record Reservation : Type := {
  Instances : list (option Instance)        (* []*ec2.Instance *)
}.

Record DescribeInstancesOutput : Type := {
  Reservations : list (option Reservation)  (* []*ec2.Reservation *)
}.

Record Filter : Type := {
  Name : option string;                     (* *string *)
  Values : list (option string)             (* []*string *)
}.

Record DescribeInstancesInput : Type := {
  Filters : list (option Filter)            (* []*ec2.Filter *)
}.

Record TerminateInstancesInput : Type := {
  InstanceIds : list (option string)        (* []*string *)
}.

Record CancelSpotInstanceRequestsInput : Type := {
  SpotInstanceRequestIds : list (option string)  (* []*string *)
}.

End ec2.

(** [aws.String] and [aws.StringSlice]: pointers to fresh copies. *)
Module aws.

Definition String (s : string) : option string := Some s.

Definition StringSlice (l : list string) : list (option string) :=
  map String l.

End aws.

(** ** What a run does: logger calls and provider calls, in order *)

(** Arguments of a [Printf]-style call, kept unrendered. *)
Inductive fmtarg : Type :=
| ArgString (s : string)
| ArgInt (n : nat)
| ArgStrings (l : list string)
| ArgError (e : error).

Inductive level : Type := Debug | Info | Err.

(** [logrus.X] is the process-wide logger, [log] the one that
    [util.GetLogger(w)] builds over the caller's output sink. *)
Inductive logger : Type := Logrus | SinkLogger (w : nat).

(** A provider call is recorded with the request sent and the answer got. *)
Inductive event : Type :=
| Logged (to : logger) (lvl : level) (format : string) (args : list fmtarg)
| DescribeInstances (input : ec2.DescribeInstancesInput)
    (output : option ec2.DescribeInstancesOutput) (err : option error)
| TerminateInstances (input : ec2.TerminateInstancesInput) (err : option error)
| CancelSpotInstanceRequests (input : ec2.CancelSpotInstanceRequestsInput)
    (err : option error).

(** Go's runtime panics; the only one in reach is the use of a [nil] pointer
    or of a [nil] interface value. *)
Inductive panic : Type := NilPointerDereference.

Inductive outcome (A : Type) : Type :=
| Returned (a : A)
| Panicked (p : panic).
Arguments Returned {A} a.
Arguments Panicked {A} p.

(** [*p], [p.f] on a pointer, or a method call on an interface value. *)
Definition deref {A : Type} (p : option A) : outcome A :=
  match p with
  | Some a => Returned a
  | None => Panicked NilPointerDereference
  end.

(** A [for _, x := range l] loop whose body updates the loop's variables
    [acc] and may panic. *)
Fixpoint range {A B : Type} (body : B -> A -> outcome B) (l : list A) (acc : B)
  : outcome B :=
  match l with
  | [] => Returned acc
  | x :: rest =>
      match body acc x with
      | Returned acc' => range body rest acc'
      | Panicked p => Panicked p
      end
  end.

(** Lines 79-85: the body of the inner loop over [res.Instances]; the loop
    variables are [(instanceIDS, spotRequestIDs)]. *)
Definition visit_instance (acc : list string * list string)
  (instance : option ec2.Instance) : outcome (list string * list string) :=
  let '(instanceIDS, spotRequestIDs) := acc in
  match deref instance with
  | Panicked p => Panicked p
  | Returned i =>
      match deref (ec2.InstanceId i) with
      | Panicked p => Panicked p
      | Returned id =>
          let instanceIDS := instanceIDS ++ [id] in
          match ec2.SpotInstanceRequestId i with
          | Some sid => Returned (instanceIDS, spotRequestIDs ++ [sid])
          | None => Returned (instanceIDS, spotRequestIDs)
          end
      end
  end.

(** Lines 78-86: the body of the outer loop over the reservations. *)
Definition visit_reservation (acc : list string * list string)
  (res : option ec2.Reservation) : outcome (list string * list string) :=
  match deref res with
  | Panicked p => Panicked p
  | Returned r => range visit_instance (ec2.Instances r) acc
  end.

(** Lines 76-86: both slices start empty ([make([]string, 0)]). *)
Definition collect (reservations : list (option ec2.Reservation))
  : outcome (list string * list string) :=
  range visit_reservation reservations ([], []).

(** ** The step's surroundings *)

Section Step.

(** [context.Context] values and the state behind the provider's API (the
    cloud account for the real client, the recorded calls for a test
    double). *)
Variables (aws_Context : Type) (Cloud : Type).

(** [steps.AWSConfig] is declared in package [steps]; the step hands it to
    [getSvc] and reads none of its fields. *)
Variable AWSConfig_t : Type.

(** [clouds.TagNodeName], declared in package [clouds]. *)
Variable TagNodeName : string.

Variables ErrAuthorization_text ErrDeleteNode_text : string.

Abbreviation Error := (Error ErrAuthorization_text ErrDeleteNode_text).

(** The fields of [steps.Config] that the step reads: [cfg.Node.Name],
    [cfg.Kube.Name] and [cfg.AWSConfig]. *)
Record Config : Type := {
  Node_Name : string;
  Kube_Name : string;
  AWSConfig : AWSConfig_t
}.

(** The interface [instanceDeleter].  A method gets the state behind the API
    and gives the new one beside its results; the outputs of the two mutating
    calls are dropped by the step ([_, err = ...]) and left out. *)
Record instanceDeleter : Type := {
  DescribeInstancesWithContext :
    aws_Context -> ec2.DescribeInstancesInput -> Cloud ->
    (option ec2.DescribeInstancesOutput * option error) * Cloud;
  TerminateInstancesWithContext :
    aws_Context -> ec2.TerminateInstancesInput -> Cloud ->
    option error * Cloud;
  CancelSpotInstanceRequestsWithContext :
    aws_Context -> ec2.CancelSpotInstanceRequestsInput -> Cloud ->
    option error * Cloud
}.

Record DeleteNodeStep : Type := {
  getSvc : AWSConfig_t -> option instanceDeleter * option error
}.

(** An [io.Writer], by name. *)
Definition io_Writer : Type := nat.

(** What a step can reach: the [steps.Config] that its argument [cfg] points
    to, and the provider. *)
Record memory : Type := {
  config : Config;
  cloud : Cloud
}.

(** ** The monad of steps *)

Definition M (A : Type) : Type := memory -> outcome A * memory * list event.

Definition ret {A : Type} (a : A) : M A := fun m => (Returned a, m, []).

Definition bind {A B : Type} (c : M A) (k : A -> M B) : M B :=
  fun m =>
    match c m with
    | (Returned a, m1, t1) =>
        let '(o, m2, t2) := k a m1 in (o, m2, t1 ++ t2)
    | (Panicked p, m1, t1) => (Panicked p, m1, t1)
    end.

Notation "x <- c ;; k" := (bind c (fun x => k))
  (at level 61, c at next level, right associativity).
Notation "c ;; k" := (bind c (fun _ => k))
  (at level 61, right associativity).

(** A pure computation that may panic. *)
Definition lift {A : Type} (o : outcome A) : M A := fun m => (o, m, []).

(** [cfg.f]: a read through the pointer [cfg]. *)
Definition load {A : Type} (f : Config -> A) : M A :=
  fun m => (Returned (f (config m)), m, []).

Definition emit (e : event) : M unit := fun m => (Returned tt, m, [e]).

Definition logrus_Infof (format : string) (args : list fmtarg) : M unit :=
  emit (Logged Logrus Info format args).
Definition logrus_Debugf (format : string) (args : list fmtarg) : M unit :=
  emit (Logged Logrus Debug format args).
Definition logrus_Errorf (format : string) (args : list fmtarg) : M unit :=
  emit (Logged Logrus Err format args).

(** [util.GetLogger(w).Infof] *)
Definition log_Infof (w : io_Writer) (format : string) (args : list fmtarg)
  : M unit :=
  emit (Logged (SinkLogger w) Info format args).

(** The three calls through the interface. *)
Definition call_DescribeInstances (svc : instanceDeleter) (ctx : aws_Context)
  (input : ec2.DescribeInstancesInput)
  : M (option ec2.DescribeInstancesOutput * option error) :=
  fun m =>
    let '((output, err), c) :=
      DescribeInstancesWithContext svc ctx input (cloud m) in
    (Returned (output, err), {| config := config m; cloud := c |},
     [DescribeInstances input output err]).

Definition call_TerminateInstances (svc : instanceDeleter) (ctx : aws_Context)
  (input : ec2.TerminateInstancesInput) : M (option error) :=
  fun m =>
    let '(err, c) := TerminateInstancesWithContext svc ctx input (cloud m) in
    (Returned err, {| config := config m; cloud := c |},
     [TerminateInstances input err]).

Definition call_CancelSpotInstanceRequests (svc : instanceDeleter)
  (ctx : aws_Context) (input : ec2.CancelSpotInstanceRequestsInput)
  : M (option error) :=
  fun m =>
    let '(err, c) :=
      CancelSpotInstanceRequestsWithContext svc ctx input (cloud m) in
    (Returned err, {| config := config m; cloud := c |},
     [CancelSpotInstanceRequests input err]).

(** ** The step *)

Definition DeleteNodeStepName : string := "aws_delete_node".

(** [GetEC2Fn] is declared in another file of the package; it gives a client
    or an error for a [steps.AWSConfig]. *)
Definition GetEC2Fn : Type := AWSConfig_t -> option instanceDeleter * option error.

Definition NewDeleteNode (fn : GetEC2Fn) : DeleteNodeStep :=
  {| getSvc := fun cfg =>
       let '(EC2, err) := fn cfg in
       match err with
       | Some e => (None, errors.Wrap (Some ErrAuthorization) (Error e))
       | None => (EC2, None)
       end |}.

Definition Name (s : DeleteNodeStep) : string := DeleteNodeStepName.

Definition Depends (s : DeleteNodeStep) : list string := [].

Definition Description (s : DeleteNodeStep) : string :=
  "Deletes node in aws cluster".

(** [Run(ctx, w, cfg)].  The pointer [cfg] is the [config] cell of the
    memory; it and the function [s.getSvc] are not [nil]. *)
Definition Run (s : DeleteNodeStep) (ctx : aws_Context) (w : io_Writer)
  : M (option error) :=
  node <- load Node_Name ;;
  logrus_Infof "[%s] - deleting node %s" [ArgString (Name s); ArgString node] ;;
  awsConfig <- load AWSConfig ;;
  let '(svc, err) := getSvc s awsConfig in
  match err with
  | Some e =>
      logrus_Errorf "Error getting service %v" [ArgError e] ;;
      ret (errors.Wrap (Some ErrAuthorization) (Error e))
  | None =>
      node <- load Node_Name ;;
      logrus_Debugf "Get instance by name filter %s" [ArgString node] ;;
      node <- load Node_Name ;;
      svc <- lift (deref svc) ;;
      r <- call_DescribeInstances svc ctx
             {| ec2.Filters :=
                  [Some {| ec2.Name := aws.String ("tag:" ++ TagNodeName);
                           ec2.Values := aws.StringSlice [node] |}] |} ;;
      let '(describeInstanceOutput, err) := r in
      match err with
      | Some e => ret (errors.Wrap (Some ErrDeleteNode) (Error e))
      | None =>
          out <- lift (deref describeInstanceOutput) ;;
          logrus_Debugf "Got %d instance outputs"
            [ArgInt (length (ec2.Reservations out))] ;;
          ids <- lift (collect (ec2.Reservations out)) ;;
          let '(instanceIDS, spotRequestIDs) := ids in
          if Nat.eqb (length instanceIDS) 0 then
            node <- load Node_Name ;;
            kube <- load Kube_Name ;;
            logrus_Infof "[%s] - node %s not found in cluster %s"
              [ArgString (Name s); ArgString node; ArgString kube] ;;
            ret None
          else
            node <- load Node_Name ;;
            logrus_Debugf "Node to be deleted Name: %s AWS id: %v"
              [ArgString node; ArgStrings instanceIDS] ;;
            err <- call_TerminateInstances svc ctx
                     {| ec2.InstanceIds := aws.StringSlice instanceIDS |} ;;
            match err with
            | Some e =>
                ret (errors.Wrapf (Some e)
                       (DeleteNodeStepName ++ " terminate instance"))
            | None =>
                err <- call_CancelSpotInstanceRequests svc ctx
                         {| ec2.SpotInstanceRequestIds :=
                              aws.StringSlice spotRequestIDs |} ;;
                match err with
                | Some e =>
                    logrus_Errorf "cancel spot requests caused %v" [ArgError e]
                | None => ret tt
                end ;;
                log_Infof w "[%s] - finished successfully" [ArgString (Name s)] ;;
                ret None
            end
      end
  end.

(** The memory once the provider has moved to state [c]. *)
Definition after (m : memory) (c : Cloud) : memory :=
  {| config := config m; cloud := c |}.

(** The request of lines 61-68 for the node that [m] names. *)
Definition lookup_request (m : memory) : ec2.DescribeInstancesInput :=
  {| ec2.Filters :=
       [Some {| ec2.Name := Some ("tag:" ++ TagNodeName)%string;
                ec2.Values := [Some (Node_Name (config m))] |}] |}.

Definition terminate_request (instanceIDS : list string)
  : ec2.TerminateInstancesInput :=
  {| ec2.InstanceIds := map Some instanceIDS |}.

Definition cancel_request (spotRequestIDs : list string)
  : ec2.CancelSpotInstanceRequestsInput :=
  {| ec2.SpotInstanceRequestIds := map Some spotRequestIDs |}.

(** The log lines of [Run], by the place they are written at. *)
Definition log_deleting (m : memory) : event :=
  Logged Logrus Info "[%s] - deleting node %s"
    [ArgString DeleteNodeStepName; ArgString (Node_Name (config m))].

Definition log_no_service (e : error) : event :=
  Logged Logrus Err "Error getting service %v" [ArgError e].

Definition log_filter (m : memory) : event :=
  Logged Logrus Debug "Get instance by name filter %s"
    [ArgString (Node_Name (config m))].

Definition log_got (out : ec2.DescribeInstancesOutput) : event :=
  Logged Logrus Debug "Got %d instance outputs"
    [ArgInt (length (ec2.Reservations out))].

Definition log_not_found (m : memory) : event :=
  Logged Logrus Info "[%s] - node %s not found in cluster %s"
    [ArgString DeleteNodeStepName; ArgString (Node_Name (config m));
     ArgString (Kube_Name (config m))].

Definition log_to_delete (m : memory) (instanceIDS : list string) : event :=
  Logged Logrus Debug "Node to be deleted Name: %s AWS id: %v"
    [ArgString (Node_Name (config m)); ArgStrings instanceIDS].

Definition log_cancel (err : option error) : list event :=
  match err with
  | Some e => [Logged Logrus Err "cancel spot requests caused %v" [ArgError e]]
  | None => []
  end.

Definition log_finished (w : io_Writer) : event :=
  Logged (SinkLogger w) Info "[%s] - finished successfully"
    [ArgString DeleteNodeStepName].

(** The ways through [Run], one per exit: what the provider answered on the
    way, what is returned, the memory left, and the calls made.  This is the
    state machine [Start -> GatewayReady -> InstancesResolved ->
    (NoneFound | InstancesTerminated -> SpotCancelAttempted) -> Done] of the
    step, with the exits by panic beside it. *)
Inductive run_path (s : DeleteNodeStep) (ctx : aws_Context) (w : io_Writer)
  (m : memory) : outcome (option error) -> memory -> list event -> Prop :=
| path_unauthorized svc e :
    getSvc s (AWSConfig (config m)) = (svc, Some e) ->
    run_path s ctx w m
      (Returned (Some (withMessage ErrAuthorization (Error e)))) m
      [log_deleting m; log_no_service e]
| path_no_client :
    getSvc s (AWSConfig (config m)) = (None, None) ->
    run_path s ctx w m (Panicked NilPointerDereference) m
      [log_deleting m; log_filter m]
| path_lookup_failed svc output e c :
    getSvc s (AWSConfig (config m)) = (Some svc, None) ->
    DescribeInstancesWithContext svc ctx (lookup_request m) (cloud m)
      = ((output, Some e), c) ->
    run_path s ctx w m
      (Returned (Some (withMessage ErrDeleteNode (Error e)))) (after m c)
      [log_deleting m; log_filter m;
       DescribeInstances (lookup_request m) output (Some e)]
| path_no_output svc c :
    getSvc s (AWSConfig (config m)) = (Some svc, None) ->
    DescribeInstancesWithContext svc ctx (lookup_request m) (cloud m)
      = ((None, None), c) ->
    run_path s ctx w m (Panicked NilPointerDereference) (after m c)
      [log_deleting m; log_filter m;
       DescribeInstances (lookup_request m) None None]
| path_bad_record svc out c p :
    getSvc s (AWSConfig (config m)) = (Some svc, None) ->
    DescribeInstancesWithContext svc ctx (lookup_request m) (cloud m)
      = ((Some out, None), c) ->
    collect (ec2.Reservations out) = Panicked p ->
    run_path s ctx w m (Panicked p) (after m c)
      [log_deleting m; log_filter m;
       DescribeInstances (lookup_request m) (Some out) None; log_got out]
| path_not_found svc out c spotRequestIDs :
    getSvc s (AWSConfig (config m)) = (Some svc, None) ->
    DescribeInstancesWithContext svc ctx (lookup_request m) (cloud m)
      = ((Some out, None), c) ->
    collect (ec2.Reservations out) = Returned ([], spotRequestIDs) ->
    run_path s ctx w m (Returned None) (after m c)
      [log_deleting m; log_filter m;
       DescribeInstances (lookup_request m) (Some out) None; log_got out;
       log_not_found m]
| path_terminate_failed svc out c instanceIDS spotRequestIDs e c' :
    getSvc s (AWSConfig (config m)) = (Some svc, None) ->
    DescribeInstancesWithContext svc ctx (lookup_request m) (cloud m)
      = ((Some out, None), c) ->
    collect (ec2.Reservations out) = Returned (instanceIDS, spotRequestIDs) ->
    instanceIDS <> [] ->
    TerminateInstancesWithContext svc ctx (terminate_request instanceIDS) c
      = (Some e, c') ->
    run_path s ctx w m
      (Returned
         (Some (withMessage e (DeleteNodeStepName ++ " terminate instance"))))
      (after m c')
      [log_deleting m; log_filter m;
       DescribeInstances (lookup_request m) (Some out) None; log_got out;
       log_to_delete m instanceIDS;
       TerminateInstances (terminate_request instanceIDS) (Some e)]
| path_done svc out c instanceIDS spotRequestIDs c' err c'' :
    getSvc s (AWSConfig (config m)) = (Some svc, None) ->
    DescribeInstancesWithContext svc ctx (lookup_request m) (cloud m)
      = ((Some out, None), c) ->
    collect (ec2.Reservations out) = Returned (instanceIDS, spotRequestIDs) ->
    instanceIDS <> [] ->
    TerminateInstancesWithContext svc ctx (terminate_request instanceIDS) c
      = (None, c') ->
    CancelSpotInstanceRequestsWithContext svc ctx
      (cancel_request spotRequestIDs) c' = (err, c'') ->
    run_path s ctx w m (Returned None) (after m c'')
      ([log_deleting m; log_filter m;
        DescribeInstances (lookup_request m) (Some out) None; log_got out;
        log_to_delete m instanceIDS;
        TerminateInstances (terminate_request instanceIDS) None;
        CancelSpotInstanceRequests (cancel_request spotRequestIDs) err]
       ++ log_cancel err ++ [log_finished w]).

(** [Rollback(ctx, w, cfg)] *)
Definition Rollback (s : DeleteNodeStep) (ctx : aws_Context) (w : io_Writer)
  : M (option error) :=
  ret None.

End Step.

Arguments Config AWSConfig_t : clear implicits.
Arguments memory Cloud AWSConfig_t : clear implicits.
Arguments instanceDeleter aws_Context Cloud : clear implicits.
Arguments DeleteNodeStep aws_Context Cloud AWSConfig_t : clear implicits.
Arguments Node_Name {AWSConfig_t} c.
Arguments Kube_Name {AWSConfig_t} c.
Arguments AWSConfig {AWSConfig_t} c.
Arguments config {Cloud AWSConfig_t} m.
Arguments cloud {Cloud AWSConfig_t} m.
Arguments after {Cloud AWSConfig_t} m c.
Arguments getSvc {aws_Context Cloud AWSConfig_t} d cfg.
Arguments DescribeInstancesWithContext {aws_Context Cloud} i ctx input c.
Arguments TerminateInstancesWithContext {aws_Context Cloud} i ctx input c.
Arguments CancelSpotInstanceRequestsWithContext {aws_Context Cloud} i ctx input c.
Arguments NewDeleteNode {aws_Context Cloud AWSConfig_t}
  ErrAuthorization_text ErrDeleteNode_text fn.
Arguments Name {aws_Context Cloud AWSConfig_t} s.
Arguments Depends {aws_Context Cloud AWSConfig_t} s.
Arguments Description {aws_Context Cloud AWSConfig_t} s.
Arguments Run {aws_Context Cloud AWSConfig_t}
  TagNodeName ErrAuthorization_text ErrDeleteNode_text s ctx w m.
Arguments Rollback {aws_Context Cloud AWSConfig_t} s ctx w m.
Arguments run_path {aws_Context Cloud AWSConfig_t}
  TagNodeName ErrAuthorization_text ErrDeleteNode_text s ctx w m o m' tr.
Arguments lookup_request {Cloud AWSConfig_t} TagNodeName m.
Arguments log_deleting {Cloud AWSConfig_t} m.
Arguments log_filter {Cloud AWSConfig_t} m.
Arguments log_not_found {Cloud AWSConfig_t} m.
Arguments log_to_delete {Cloud AWSConfig_t} m instanceIDS.

(** ** Reading a lookup answer and a trace *)

(** The entries of a slice of pointers that are not [nil]. *)
Definition present {A : Type} (l : list (option A)) : list A :=
  flat_map (fun p => match p with Some a => [a] | None => [] end) l.

(** The instance records of a lookup answer, in the order of the answer. *)
Definition instances (out : ec2.DescribeInstancesOutput) : list ec2.Instance :=
  flat_map (fun r => present (ec2.Instances r)) (present (ec2.Reservations out)).

Definition instance_ids (l : list ec2.Instance) : list string :=
  present (map ec2.InstanceId l).

Definition spot_request_ids (l : list ec2.Instance) : list string :=
  present (map ec2.SpotInstanceRequestId l).

(** A lookup answer is well formed when no reservation and no instance in it
    is a [nil] pointer and every instance record carries its identifier. *)
Definition instance_ok (i : option ec2.Instance) : bool :=
  match i with
  | Some i => match ec2.InstanceId i with Some _ => true | None => false end
  | None => false
  end.

Definition reservation_ok (r : option ec2.Reservation) : bool :=
  match r with
  | Some r => forallb instance_ok (ec2.Instances r)
  | None => false
  end.

Definition well_formed (out : ec2.DescribeInstancesOutput) : bool :=
  forallb reservation_ok (ec2.Reservations out).

(** The requests of one kind that a trace holds, in order. *)
Definition terminate_requests (tr : list event)
  : list ec2.TerminateInstancesInput :=
  flat_map (fun e => match e with
                     | TerminateInstances input _ => [input]
                     | _ => []
                     end) tr.

Definition cancel_requests (tr : list event)
  : list ec2.CancelSpotInstanceRequestsInput :=
  flat_map (fun e => match e with
                     | CancelSpotInstanceRequests input _ => [input]
                     | _ => []
                     end) tr.

Definition is_provider_call (e : event) : bool :=
  match e with
  | Logged _ _ _ _ => false
  | _ => true
  end.

(** The provider calls of a trace, requests and answers, in order. *)
Definition provider_calls (tr : list event) : list event :=
  filter is_provider_call tr.

(** A client whose answers are a fixed function of the request it gets: the
    state behind the API has no part in them. *)
Definition answers_by_request {aws_Context Cloud : Type}
  (svc : instanceDeleter aws_Context Cloud) : Prop :=
  (forall ctx input c c',
      fst (DescribeInstancesWithContext svc ctx input c)
      = fst (DescribeInstancesWithContext svc ctx input c'))
  /\ (forall ctx input c c',
      fst (TerminateInstancesWithContext svc ctx input c)
      = fst (TerminateInstancesWithContext svc ctx input c'))
  /\ (forall ctx input c c',
      fst (CancelSpotInstanceRequestsWithContext svc ctx input c)
      = fst (CancelSpotInstanceRequestsWithContext svc ctx input c')).

(** The test a caller makes on a returned error:
    [errors.Cause(err) == ErrAuthorization], and the same for
    [ErrDeleteNode]. *)
Definition is_authorization (err : error) : bool :=
  match errors.Cause err with
  | ErrAuthorization => true
  | _ => false
  end.

Definition is_lookup_failure (err : error) : bool :=
  match errors.Cause err with
  | ErrDeleteNode => true
  | _ => false
  end.

(** ** A test double *)

(** A client with canned answers; the state behind it counts the calls. *)
Definition fake_ec2 (found : option ec2.DescribeInstancesOutput * option error)
  (terminated cancelled : option error) : instanceDeleter unit nat :=
  {| DescribeInstancesWithContext := fun _ _ calls => (found, S calls);
     TerminateInstancesWithContext := fun _ _ calls => (terminated, S calls);
     CancelSpotInstanceRequestsWithContext :=
       fun _ _ calls => (cancelled, S calls) |}.

Definition fake_step (svc : instanceDeleter unit nat)
  : DeleteNodeStep unit nat string :=
  {| getSvc := fun _ => (Some svc, None) |}.

Definition unauthorized_step (e : error) : DeleteNodeStep unit nat string :=
  {| getSvc := fun _ => (None, Some e) |}.

Definition worker (node : string) : memory nat string :=
  {| config := {| Node_Name := node; Kube_Name := "kube";
                  AWSConfig := "eu-west-1" |};
     cloud := 0 |}.

Definition answer (l : list ec2.Instance) : ec2.DescribeInstancesOutput :=
  {| ec2.Reservations := [Some {| ec2.Instances := map Some l |}] |}.

Definition spot_instance : ec2.Instance :=
  {| ec2.InstanceId := Some "i-1"; ec2.SpotInstanceRequestId := Some "sir-1" |}.

Definition plain_instance : ec2.Instance :=
  {| ec2.InstanceId := Some "i-2"; ec2.SpotInstanceRequestId := None |}.

Definition nameless_instance : ec2.Instance :=
  {| ec2.InstanceId := None; ec2.SpotInstanceRequestId := None |}.

Definition transient : error := errorString "RequestLimitExceeded".

(** Constructors of the client, as [NewDeleteNode] takes them: one that
    refuses the credentials and one that hands out a given client. *)
Definition refusing (e : error) : GetEC2Fn unit nat string :=
  fun _ => (None, Some e).

Definition granting (svc : instanceDeleter unit nat) : GetEC2Fn unit nat string :=
  fun _ => (Some svc, None).

(** The same instances as [answer l], one reservation for each. *)
Definition scattered_answer (l : list ec2.Instance) : ec2.DescribeInstancesOutput :=
  {| ec2.Reservations :=
       map (fun i => Some {| ec2.Instances := [Some i] |}) l |}.

(** ** Properties *)

Section Properties.

Context {aws_Context Cloud AWSConfig_t : Type}.
Variables TagNodeName ErrAuthorization_text ErrDeleteNode_text : string.

Implicit Types (s : DeleteNodeStep aws_Context Cloud AWSConfig_t)
  (m : memory Cloud AWSConfig_t) (tr : list event)
  (o : outcome (option error)).

(** *** The collecting loops *)

Lemma present_app {A : Type} (l1 l2 : list (option A)) :
  present (l1 ++ l2) = present l1 ++ present l2.
Proof. apply flat_map_app. Qed.

Lemma range_visit_instance_ok (l : list (option ec2.Instance)) :
  forall a b,
    forallb instance_ok l = true ->
    range visit_instance l (a, b)
    = Returned (a ++ instance_ids (present l), b ++ spot_request_ids (present l)).
Proof.
  induction l as [|[i|] l IH]; intros a b Hok; simpl in *.
  - now rewrite !app_nil_r.
  - apply andb_prop in Hok as [Hi Hl].
    destruct i as [[id|] spot]; simpl in *; [|discriminate].
    unfold instance_ids, spot_request_ids in *; simpl.
    destruct spot as [sid|]; simpl; rewrite IH by assumption;
      now rewrite <- !app_assoc.
  - discriminate.
Qed.

Lemma range_visit_instance_bad (l : list (option ec2.Instance)) :
  forall acc,
    forallb instance_ok l = false ->
    range visit_instance l acc = Panicked NilPointerDereference.
Proof.
  induction l as [|[i|] l IH]; intros [a b] Hbad; simpl in *.
  - discriminate.
  - destruct i as [[id|] spot]; simpl in *; [|reflexivity].
    destruct spot; apply IH, Hbad.
  - reflexivity.
Qed.

Lemma range_visit_reservation_ok (rs : list (option ec2.Reservation)) :
  forall a b,
    forallb reservation_ok rs = true ->
    range visit_reservation rs (a, b)
    = Returned
        (a ++ instance_ids (flat_map (fun r => present (ec2.Instances r)) (present rs)),
         b ++ spot_request_ids
                (flat_map (fun r => present (ec2.Instances r)) (present rs))).
Proof.
  induction rs as [|[r|] rs IH]; intros a b Hok; simpl in *.
  - now rewrite !app_nil_r.
  - apply andb_prop in Hok as [Hr Hrs].
    unfold visit_reservation at 1; simpl.
    rewrite range_visit_instance_ok by assumption.
    rewrite IH by assumption.
    unfold instance_ids, spot_request_ids.
    now rewrite !map_app, !present_app, <- !app_assoc.
  - discriminate.
Qed.

Lemma range_visit_reservation_bad (rs : list (option ec2.Reservation)) :
  forall acc,
    forallb reservation_ok rs = false ->
    range visit_reservation rs acc = Panicked NilPointerDereference.
Proof.
  induction rs as [|[r|] rs IH]; intros [a b] Hbad; simpl in *.
  - discriminate.
  - unfold visit_reservation at 1; simpl.
    destruct (forallb instance_ok (ec2.Instances r)) eqn:Hr; simpl in Hbad.
    + rewrite range_visit_instance_ok by assumption. now apply IH.
    + now rewrite range_visit_instance_bad.
  - reflexivity.
Qed.

(** The loops either read the whole answer or stop at its first defect. *)
Lemma collect_spec (out : ec2.DescribeInstancesOutput) :
  collect (ec2.Reservations out)
  = if well_formed out
    then Returned (instance_ids (instances out), spot_request_ids (instances out))
    else Panicked NilPointerDereference.
Proof.
  unfold collect, well_formed, instances.
  destruct (forallb reservation_ok (ec2.Reservations out)) eqn:Hok.
  - now rewrite range_visit_reservation_ok.
  - now apply range_visit_reservation_bad.
Qed.

Lemma collect_returned (out : ec2.DescribeInstancesOutput) ids spots :
  collect (ec2.Reservations out) = Returned (ids, spots) ->
  well_formed out = true
  /\ ids = instance_ids (instances out)
  /\ spots = spot_request_ids (instances out).
Proof.
  rewrite collect_spec. destruct (well_formed out); [|discriminate].
  intros H; injection H as <- <-. auto.
Qed.

Lemma in_present {A : Type} (a : A) (l : list (option A)) :
  In a (present l) <-> In (Some a) l.
Proof.
  induction l as [|[x|] l IH]; simpl.
  - tauto.
  - rewrite IH. split; (intros [H|H]; [left; congruence | now right]).
  - rewrite IH. split; [now right | intros [H|H]; [discriminate | assumption]].
Qed.

Lemma in_instances (out : ec2.DescribeInstancesOutput) (i : ec2.Instance) :
  In i (instances out)
  <-> exists r, In (Some r) (ec2.Reservations out) /\ In (Some i) (ec2.Instances r).
Proof.
  unfold instances. rewrite in_flat_map.
  split; intros [r [Hr Hi]]; exists r;
    (split; [apply in_present, Hr | apply in_present, Hi]).
Qed.

(** In a well-formed answer every instance has its identifier. *)
Lemma well_formed_identified (out : ec2.DescribeInstancesOutput) (i : ec2.Instance) :
  well_formed out = true -> In i (instances out) ->
  exists id, ec2.InstanceId i = Some id.
Proof.
  intros Hwf Hi. apply in_instances in Hi as [r [Hr Hi]].
  unfold well_formed in Hwf. rewrite forallb_forall in Hwf.
  specialize (Hwf _ Hr). simpl in Hwf. rewrite forallb_forall in Hwf.
  specialize (Hwf _ Hi). simpl in Hwf.
  destruct (ec2.InstanceId i) as [id|]; [now exists id | discriminate].
Qed.

Lemma in_instance_ids (l : list ec2.Instance) (id : string) :
  In id (instance_ids l) <-> exists i, In i l /\ ec2.InstanceId i = Some id.
Proof.
  unfold instance_ids. rewrite in_present, in_map_iff.
  split; intros [i [H1 H2]]; exists i; auto.
Qed.

Lemma in_spot_request_ids (l : list ec2.Instance) (sid : string) :
  In sid (spot_request_ids l)
  <-> exists i, In i l /\ ec2.SpotInstanceRequestId i = Some sid.
Proof.
  unfold spot_request_ids. rewrite in_present, in_map_iff.
  split; intros [i [H1 H2]]; exists i; auto.
Qed.

Lemma in_map_Some {A : Type} (a : A) (l : list A) :
  In (Some a) (map Some l) <-> In a l.
Proof.
  rewrite in_map_iff. split.
  - intros [x [Hx Hin]]. now injection Hx as <-.
  - intros H. now exists a.
Qed.

(** *** Every run takes one of the paths *)

Lemma Run_path s ctx w m :
  forall o m' tr,
    Run TagNodeName ErrAuthorization_text ErrDeleteNode_text s ctx w m
    = (o, m', tr) ->
    run_path TagNodeName ErrAuthorization_text ErrDeleteNode_text s ctx w m
      o m' tr.
Proof.
  intros o m' tr.
  unfold Run, bind, load, lift, ret, logrus_Infof, logrus_Debugf,
    logrus_Errorf, log_Infof, emit; simpl.
  destruct (getSvc s (AWSConfig (config m))) as [svc [e|]] eqn:Hsvc; simpl.
  { intros H; injection H as <- <- <-. eapply path_unauthorized; eauto. }
  destruct svc as [svc|]; simpl.
  2:{ intros H; injection H as <- <- <-. now apply path_no_client. }
  unfold call_DescribeInstances.
  destruct (DescribeInstancesWithContext svc ctx _ (cloud m))
    as [[output [e|]] c] eqn:Hlookup; simpl.
  { intros H; injection H as <- <- <-. eapply path_lookup_failed; eauto. }
  destruct output as [out|]; simpl.
  2:{ intros H; injection H as <- <- <-. eapply path_no_output; eauto. }
  destruct (collect (ec2.Reservations out)) as [[ids spots]|p] eqn:Hcollect;
    simpl.
  2:{ intros H; injection H as <- <- <-. eapply path_bad_record; eauto. }
  destruct ids as [|id ids]; simpl.
  { intros H; injection H as <- <- <-. eapply path_not_found; eauto. }
  unfold call_TerminateInstances; simpl.
  destruct (TerminateInstancesWithContext svc ctx _ c) as [[e|] c'] eqn:Hterm;
    simpl.
  { intros H; injection H as <- <- <-.
    eapply path_terminate_failed; eauto. discriminate. }
  unfold call_CancelSpotInstanceRequests; simpl.
  destruct (CancelSpotInstanceRequestsWithContext svc ctx _ c')
    as [err c''] eqn:Hcancel; simpl.
  destruct err as [e|]; simpl; intros H; injection H as <- <- <-;
    eapply path_done with (instanceIDS := id :: ids); eauto; discriminate.
Qed.

(** Case analysis on the way a run took. *)
Ltac run_paths H :=
  apply Run_path in H; inversion H; subst; clear H;
  try match goal with
    | Hc : collect _ = Returned (?ids, _), Hn : ?ids <> [] |- _ =>
        rename Hn into Hfound
    end;
  try match goal with
    | Hc : collect _ = _ |- _ => rename Hc into Hcollect
    end.

(** Case analysis on where in a listed trace an event sits. *)
Ltac locate H :=
  simpl in H;
  repeat (destruct H as [H|H]; [try discriminate H|]);
  try contradiction.

(** *** The lookup *)

(** X14.  Every lookup that a run makes carries exactly one filter, named
    "tag:" followed by [clouds.TagNodeName], with the name of the configured
    node as its only value. *)
Lemma Run_looks_up_by_node_name s ctx w m o m' tr input output err :
  Run TagNodeName ErrAuthorization_text ErrDeleteNode_text s ctx w m
  = (o, m', tr) ->
  In (DescribeInstances input output err) tr ->
  input
  = {| ec2.Filters :=
         [Some {| ec2.Name := Some ("tag:" ++ TagNodeName)%string;
                  ec2.Values := [Some (Node_Name (config m))] |}] |}.
Proof.
  intros Hrun Hin.
  run_paths Hrun; try (locate Hin; fail);
    try (destruct err0); locate Hin; now injection Hin as <- _ _.
Qed.

(** *** Absent node *)

(** C1.  When the lookup of a run succeeds and its answer holds no instance,
    [Run] returns no error and sends neither a termination request nor a
    spot-cancellation request. *)
Theorem Run_absent_node_succeeds s ctx w m o m' tr input out :
  Run TagNodeName ErrAuthorization_text ErrDeleteNode_text s ctx w m
  = (o, m', tr) ->
  In (DescribeInstances input (Some out) None) tr ->
  well_formed out = true ->
  instances out = [] ->
  o = Returned None /\ terminate_requests tr = [] /\ cancel_requests tr = [].
Proof.
  intros Hrun Hin Hwf Hnone.
  run_paths Hrun; try (locate Hin; fail).
  - (* a defective record: excluded by well-formedness *)
    locate Hin. injection Hin as _ ->.
    rewrite collect_spec, Hwf in *. discriminate.
  - (* not found *)
    auto.
  - (* termination was tried: the answer had an instance *)
    locate Hin. injection Hin as _ ->.
    apply collect_returned in Hcollect as (_ & -> & _).
    rewrite Hnone in *. now contradiction Hfound.
  - destruct err; locate Hin; injection Hin as _ ->;
      apply collect_returned in Hcollect as (_ & -> & _);
      rewrite Hnone in *; now contradiction Hfound.
Qed.

(** *** Termination *)

Lemma instance_ids_nonempty (out : ec2.DescribeInstancesOutput) :
  well_formed out = true -> instances out <> [] ->
  instance_ids (instances out) <> [].
Proof.
  intros Hwf Hsome Hids.
  destruct (instances out) as [|i l] eqn:Hi; [now apply Hsome|].
  destruct (well_formed_identified out i Hwf) as [id Hid].
  - rewrite Hi. now left.
  - assert (Hin : In id (instance_ids (i :: l)))
      by (apply in_instance_ids; exists i; split; [now left | assumption]).
    rewrite Hids in Hin. exact Hin.
Qed.

(** C2.  When the lookup of a run succeeds and its answer holds at least one
    instance, each with its identifier, [Run] sends exactly one termination
    request, and an identifier is in that request exactly when it is the
    identifier of an instance of the answer. *)
Theorem Run_terminates_found_instances s ctx w m o m' tr input out :
  Run TagNodeName ErrAuthorization_text ErrDeleteNode_text s ctx w m
  = (o, m', tr) ->
  In (DescribeInstances input (Some out) None) tr ->
  well_formed out = true ->
  instances out <> [] ->
  exists request,
    terminate_requests tr = [request]
    /\ request = terminate_request (instance_ids (instances out))
    /\ forall id,
         In (Some id) (ec2.InstanceIds request)
         <-> exists i, In i (instances out) /\ ec2.InstanceId i = Some id.
Proof.
  intros Hrun Hin Hwf Hsome.
  pose proof (instance_ids_nonempty out Hwf Hsome) as Hids.
  exists (terminate_request (instance_ids (instances out))).
  assert (Hset : forall id,
             In (Some id)
               (ec2.InstanceIds (terminate_request (instance_ids (instances out))))
             <-> exists i, In i (instances out) /\ ec2.InstanceId i = Some id).
  { intros id. simpl. now rewrite in_map_Some, in_instance_ids. }
  run_paths Hrun; try (locate Hin; fail).
  - locate Hin. injection Hin as _ ->.
    rewrite collect_spec, Hwf in *. discriminate.
  - locate Hin. injection Hin as _ ->.
    apply collect_returned in Hcollect as (_ & Hnil & _).
    now rewrite <- Hnil in Hids.
  - locate Hin. injection Hin as _ ->.
    apply collect_returned in Hcollect as (_ & -> & _). auto.
  - assert (Hout : out0 = out)
      by (destruct err; locate Hin; now injection Hin as _ ->).
    subst out0. apply collect_returned in Hcollect as (_ & -> & _).
    split; [|auto].
    unfold terminate_requests. rewrite flat_map_app. simpl.
    destruct err; reflexivity.
Qed.

(** C3.  In a run whose termination request succeeds, [Run] returns no
    error whatever the provider answers to the spot-cancellation request;
    an error answer to that request is written to the log and nothing
    else. *)
Theorem Run_cancel_failure_is_not_fatal s ctx w m o m' tr request :
  Run TagNodeName ErrAuthorization_text ErrDeleteNode_text s ctx w m
  = (o, m', tr) ->
  In (TerminateInstances request None) tr ->
  o = Returned None
  /\ forall cancel e,
       In (CancelSpotInstanceRequests cancel (Some e)) tr ->
       In (Logged Logrus Err "cancel spot requests caused %v" [ArgError e]) tr.
Proof.
  intros Hrun Hin.
  run_paths Hrun; try (locate Hin; fail).
  split; [reflexivity|].
  intros cancel e Hc. clear Hin.
  destruct err as [e'|]; locate Hc.
  injection Hc as _ <-. simpl. tauto.
Qed.

(** C4.  In a run whose termination request fails, [Run] returns the
    provider's error wrapped with the message "aws_delete_node terminate
    instance", the request named at least one instance, and no
    spot-cancellation request is sent. *)
Theorem Run_terminate_failure_is_fatal s ctx w m o m' tr request e :
  Run TagNodeName ErrAuthorization_text ErrDeleteNode_text s ctx w m
  = (o, m', tr) ->
  In (TerminateInstances request (Some e)) tr ->
  o = Returned (errors.Wrapf (Some e) (Name s ++ " terminate instance"))
  /\ (exists err,
        o = Returned (Some err)
        /\ Error ErrAuthorization_text ErrDeleteNode_text err
           = ("aws_delete_node terminate instance: "
              ++ Error ErrAuthorization_text ErrDeleteNode_text e)%string)
  /\ ec2.InstanceIds request <> []
  /\ cancel_requests tr = [].
Proof.
  intros Hrun Hin.
  run_paths Hrun; try (locate Hin; fail).
  - locate Hin. injection Hin as <- <-.
    repeat split.
    + eexists; split; reflexivity.
    + destruct instanceIDS; [now contradiction Hfound | discriminate].
  - destruct err; locate Hin.
Qed.

(** *** Failures before any mutation *)

(** C5.  When the construction of the client fails, [Run] returns an error
    whose cause is [ErrAuthorization] and calls the provider not at all;
    when the lookup fails, [Run] returns an error whose cause is
    [ErrDeleteNode] and sends no termination and no spot-cancellation
    request.  The test for either cause rejects the error of the other
    failure. *)
Theorem Run_fails_before_mutation s ctx w m o m' tr :
  Run TagNodeName ErrAuthorization_text ErrDeleteNode_text s ctx w m
  = (o, m', tr) ->
  (forall svc e,
      getSvc s (AWSConfig (config m)) = (svc, Some e) ->
      exists err,
        o = Returned (Some err)
        /\ errors.Cause err = ErrAuthorization
        /\ is_authorization err = true /\ is_lookup_failure err = false
        /\ provider_calls tr = [])
  /\ (forall input output e,
      In (DescribeInstances input output (Some e)) tr ->
      exists err,
        o = Returned (Some err)
        /\ errors.Cause err = ErrDeleteNode
        /\ is_lookup_failure err = true /\ is_authorization err = false
        /\ terminate_requests tr = [] /\ cancel_requests tr = []).
Proof.
  intros Hrun. split.
  - intros svc0 e0 Hsvc.
    run_paths Hrun; try congruence.
    eexists. repeat split.
  - intros input output e0 Hin.
    run_paths Hrun; try (locate Hin; fail).
    + eexists. repeat split.
    + destruct err; locate Hin.
Qed.

(** *** Rollback *)

(** C6.  [Rollback] returns no error, calls neither the provider nor a
    logger and leaves the memory as it was, from any memory and so also
    from the one a run of [Run] leaves. *)
Theorem Rollback_is_a_no_op s ctx w m :
  Rollback s ctx w m = (Returned None, m, [])
  /\ (let after_run :=
        snd (fst (Run TagNodeName ErrAuthorization_text ErrDeleteNode_text
                    s ctx w m)) in
      Rollback s ctx w after_run = (Returned None, after_run, [])).
Proof. split; reflexivity. Qed.

(** *** Spot requests *)

(** C7.  In a run whose termination request succeeds, [Run] sends exactly
    one spot-cancellation request; an identifier is in it exactly when it is
    the spot-request identifier of an instance of the lookup answer, so an
    instance without one adds nothing, and when no instance has one the
    request is sent with no identifier. *)
Theorem Run_cancels_spot_requests s ctx w m o m' tr request :
  Run TagNodeName ErrAuthorization_text ErrDeleteNode_text s ctx w m
  = (o, m', tr) ->
  In (TerminateInstances request None) tr ->
  exists out cancel,
    In (DescribeInstances (lookup_request TagNodeName m) (Some out) None) tr
    /\ cancel_requests tr = [cancel]
    /\ cancel = cancel_request (spot_request_ids (instances out))
    /\ (forall sid,
          In (Some sid) (ec2.SpotInstanceRequestIds cancel)
          <-> exists i,
              In i (instances out) /\ ec2.SpotInstanceRequestId i = Some sid)
    /\ ((forall i, In i (instances out) -> ec2.SpotInstanceRequestId i = None) ->
        ec2.SpotInstanceRequestIds cancel = []).
Proof.
  intros Hrun Hin.
  run_paths Hrun; try (locate Hin; fail). clear Hin.
  apply collect_returned in Hcollect as (_ & _ & ->).
  exists out, (cancel_request (spot_request_ids (instances out))).
  split; [simpl; tauto|].
  split; [unfold cancel_requests; rewrite flat_map_app; now destruct err|].
  split; [reflexivity|].
  split.
  - intros sid. simpl. now rewrite in_map_Some, in_spot_request_ids.
  - intros Hnone. simpl.
    destruct (spot_request_ids (instances out)) as [|sid l] eqn:Hs;
      [reflexivity|].
    assert (Hsid : In sid (spot_request_ids (instances out)))
      by (rewrite Hs; now left).
    apply in_spot_request_ids in Hsid as [i [Hi Hspot]].
    rewrite (Hnone i Hi) in Hspot. discriminate.
Qed.

(** *** Panics *)

(** A lookup answer with a defect makes the run panic. *)
Lemma Run_defective_answer_panics s ctx w m o m' tr input out :
  Run TagNodeName ErrAuthorization_text ErrDeleteNode_text s ctx w m
  = (o, m', tr) ->
  In (DescribeInstances input (Some out) None) tr ->
  well_formed out = false ->
  o = Panicked NilPointerDereference.
Proof.
  intros Hrun Hin Hbad.
  assert (Hc : collect (ec2.Reservations out) = Panicked NilPointerDereference)
    by now rewrite collect_spec, Hbad.
  run_paths Hrun; try (locate Hin; fail);
    try (destruct err); locate Hin; injection Hin as _ ->; congruence.
Qed.

(** C8 (not met by the code).  On a lookup answer with an instance record
    that has no instance identifier, [Run] does not return an error value:
    it panics on the [nil] pointer, after the lookup and before any
    termination request. *)
Theorem Run_panics_without_instance_id :
  Run TagNodeName ErrAuthorization_text ErrDeleteNode_text
    (fake_step (fake_ec2 (Some (answer [nameless_instance]), None) None None))
    tt 0 (worker "worker-9")
  = (Panicked NilPointerDereference,
     after (worker "worker-9") 1,
     [log_deleting (worker "worker-9"); log_filter (worker "worker-9");
      DescribeInstances (lookup_request TagNodeName (worker "worker-9"))
        (Some (answer [nameless_instance])) None;
      log_got (answer [nameless_instance])]).
Proof. reflexivity. Qed.

(** *** The configuration *)

(** C9.  Whatever way a run takes, by return or by panic, the
    configuration that [cfg] points to is the same after [Run] as before. *)
Theorem Run_keeps_config s ctx w m :
  config (snd (fst (Run TagNodeName ErrAuthorization_text ErrDeleteNode_text
                      s ctx w m)))
  = config m.
Proof.
  destruct (Run TagNodeName ErrAuthorization_text ErrDeleteNode_text s ctx w m)
    as [[o m'] tr] eqn:Hrun.
  run_paths Hrun; reflexivity.
Qed.

(** *** Determinism *)

(** Two answers of a client that answers by request are the same answer. *)
Ltac same_answers Hfixed :=
  destruct Hfixed as (Hlookup & Hterminate & Hcancel);
  repeat match goal with
    | H1 : DescribeInstancesWithContext ?svc ?ctx ?i ?c1 = _,
      H2 : DescribeInstancesWithContext ?svc ?ctx ?i ?c2 = _ |- _ =>
        let E := fresh "E" in
        pose proof (Hlookup ctx i c1 c2) as E;
        rewrite H1, H2 in E; simpl in E; clear H1 H2
    | H1 : TerminateInstancesWithContext ?svc ?ctx ?i ?c1 = _,
      H2 : TerminateInstancesWithContext ?svc ?ctx ?i ?c2 = _ |- _ =>
        let E := fresh "E" in
        pose proof (Hterminate ctx i c1 c2) as E;
        rewrite H1, H2 in E; simpl in E; clear H1 H2
    | H1 : CancelSpotInstanceRequestsWithContext ?svc ?ctx ?i ?c1 = _,
      H2 : CancelSpotInstanceRequestsWithContext ?svc ?ctx ?i ?c2 = _ |- _ =>
        let E := fresh "E" in
        pose proof (Hcancel ctx i c1 c2) as E;
        rewrite H1, H2 in E; simpl in E; clear H1 H2
    | E : (_, _) = (_, _) |- _ => injection E; clear E; intros; subst
    | E : Some _ = Some _ |- _ => injection E; clear E; intros; subst
    | E : Returned _ = Returned _ |- _ => injection E; clear E; intros; subst
    | E1 : collect ?r = _, E2 : collect ?r = _ |- _ =>
        rewrite E1 in E2
    end.

Lemma run_path_deterministic s ctx w m1 m2 o1 o2 m1' m2' tr1 tr2 :
  config m1 = config m2 ->
  (forall svc e,
      getSvc s (AWSConfig (config m1)) = (Some svc, e) ->
      answers_by_request svc) ->
  run_path TagNodeName ErrAuthorization_text ErrDeleteNode_text s ctx w m1
    o1 m1' tr1 ->
  run_path TagNodeName ErrAuthorization_text ErrDeleteNode_text s ctx w m2
    o2 m2' tr2 ->
  o1 = o2 /\ tr1 = tr2.
Proof.
  intros Hconfig Hfixed P1 P2.
  destruct P1;
    (destruct P2;
     unfold lookup_request, log_deleting, log_filter, log_not_found,
       log_to_delete in *;
     rewrite <- Hconfig in *;
     try congruence).
  all: try (match goal with
            | H1 : getSvc ?s0 ?a = (Some ?x, _), H2 : getSvc ?s0 ?a = (Some ?y, _) |- _ =>
                assert (x = y) by congruence; subst y;
                specialize (Hfixed _ _ H1)
            end).
  all: try solve [split; congruence].
  all: same_answers Hfixed; split; congruence.
Qed.

(** C10.  Two runs of the step on the same configuration, through a client
    whose answers are a fixed function of the request, make the same
    provider calls in the same order and end in the same way, whatever the
    state behind the provider at either start. *)
Theorem Run_is_deterministic s ctx w m1 m2 :
  config m1 = config m2 ->
  (forall svc e,
      getSvc s (AWSConfig (config m1)) = (Some svc, e) ->
      answers_by_request svc) ->
  fst (fst (Run TagNodeName ErrAuthorization_text ErrDeleteNode_text s ctx w m1))
  = fst (fst (Run TagNodeName ErrAuthorization_text ErrDeleteNode_text s ctx w m2))
  /\ provider_calls
       (snd (Run TagNodeName ErrAuthorization_text ErrDeleteNode_text s ctx w m1))
     = provider_calls
         (snd (Run TagNodeName ErrAuthorization_text ErrDeleteNode_text s ctx w m2)).
Proof.
  intros Hconfig Hfixed.
  destruct (Run TagNodeName ErrAuthorization_text ErrDeleteNode_text s ctx w m1)
    as [[o1 m1'] tr1] eqn:Hrun1.
  destruct (Run TagNodeName ErrAuthorization_text ErrDeleteNode_text s ctx w m2)
    as [[o2 m2'] tr2] eqn:Hrun2.
  apply Run_path in Hrun1, Hrun2.
  destruct (run_path_deterministic s ctx w m1 m2 o1 o2 m1' m2' tr1 tr2
              Hconfig Hfixed Hrun1 Hrun2) as [-> ->].
  split; reflexivity.
Qed.

(** *** Steps built by [NewDeleteNode] *)

(** X1.  When the constructor handed to [NewDeleteNode] fails with [e], a run
    of the built step returns an error whose cause is [ErrAuthorization] and
    whose text is that of [e] followed twice by the text of
    [ErrAuthorization] (wrapped once in [getSvc], once in [Run]); a client
    that the constructor gave beside the error is never called and the
    memory is left as it was. *)
Theorem Run_NewDeleteNode_refused
  (fn : GetEC2Fn aws_Context Cloud AWSConfig_t) ctx w m svc e :
  fn (AWSConfig (config m)) = (svc, Some e) ->
  exists err,
    Run TagNodeName ErrAuthorization_text ErrDeleteNode_text
      (NewDeleteNode ErrAuthorization_text ErrDeleteNode_text fn) ctx w m
    = (Returned (Some err), m,
       [log_deleting m;
        log_no_service
          (withMessage ErrAuthorization
             (Error ErrAuthorization_text ErrDeleteNode_text e))])
    /\ errors.Cause err = ErrAuthorization
    /\ Error ErrAuthorization_text ErrDeleteNode_text err
       = ((Error ErrAuthorization_text ErrDeleteNode_text e
           ++ ": " ++ ErrAuthorization_text)
          ++ ": " ++ ErrAuthorization_text)%string.
Proof.
  intros Hfn. eexists.
  unfold Run, NewDeleteNode, bind, load, logrus_Infof, logrus_Errorf, emit, ret.
  simpl. rewrite Hfn. simpl.
  split; [reflexivity|]. split; reflexivity.
Qed.

(** X2.  When the constructor handed to [NewDeleteNode] gives no error for
    the configuration, a run of the built step is the run of a step that
    calls the constructor directly: [NewDeleteNode] adds nothing on the
    success path. *)
Theorem Run_NewDeleteNode_granted
  (fn : GetEC2Fn aws_Context Cloud AWSConfig_t) ctx w m :
  snd (fn (AWSConfig (config m))) = None ->
  Run TagNodeName ErrAuthorization_text ErrDeleteNode_text
    (NewDeleteNode ErrAuthorization_text ErrDeleteNode_text fn) ctx w m
  = Run TagNodeName ErrAuthorization_text ErrDeleteNode_text
      {| getSvc := fn |} ctx w m.
Proof.
  intros Hfn.
  unfold Run, NewDeleteNode, bind, load, logrus_Infof, emit. simpl.
  destruct (fn (AWSConfig (config m))) as [svc [e|]]; simpl in *;
    [discriminate | reflexivity].
Qed.

(** *** The order of the provider calls *)

(** X3.  A run calls the provider at most three times and in one order: the
    lookup, then one termination request if the lookup found instances, then
    one spot-cancellation request if the termination succeeded. *)
Theorem Run_calls_in_order s ctx w m :
  let calls :=
    provider_calls
      (snd (Run TagNodeName ErrAuthorization_text ErrDeleteNode_text s ctx w m)) in
  calls = []
  \/ (exists output err,
        calls = [DescribeInstances (lookup_request TagNodeName m) output err])
  \/ (exists out ids e,
        ids <> []
        /\ calls = [DescribeInstances (lookup_request TagNodeName m) (Some out) None;
                    TerminateInstances (terminate_request ids) (Some e)])
  \/ (exists out ids spots err,
        ids <> []
        /\ calls = [DescribeInstances (lookup_request TagNodeName m) (Some out) None;
                    TerminateInstances (terminate_request ids) None;
                    CancelSpotInstanceRequests (cancel_request spots) err]).
Proof.
  cbv zeta.
  destruct (Run TagNodeName ErrAuthorization_text ErrDeleteNode_text s ctx w m)
    as [[o m'] tr] eqn:Hrun.
  run_paths Hrun; simpl.
  - now left.
  - now left.
  - right; left. eauto.
  - right; left. eauto.
  - right; left. eauto.
  - right; left. eauto.
  - right; right; left. eauto 6.
  - right; right; right. exists out, instanceIDS, spotRequestIDs, err.
    split; [assumption|]. now destruct err.
Qed.

(** *** How a run ends *)

(** X4.  [Run] returns no error in exactly two cases: the lookup answered
    with a well-formed answer that holds no instance, or the termination
    request succeeded. *)
Theorem Run_succeeds_iff s ctx w m :
  let run := Run TagNodeName ErrAuthorization_text ErrDeleteNode_text s ctx w m in
  fst (fst run) = Returned None
  <-> (exists input out,
          In (DescribeInstances input (Some out) None) (snd run)
          /\ well_formed out = true /\ instances out = [])
      \/ (exists request, In (TerminateInstances request None) (snd run)).
Proof.
  cbv zeta.
  destruct (Run TagNodeName ErrAuthorization_text ErrDeleteNode_text s ctx w m)
    as [[o m'] tr] eqn:Hrun.
  simpl. run_paths Hrun.
  all: split;
    [ intros Ho; try discriminate Ho
    | intros [(input & out' & Hin & Hwf & Hnone) | (request & Hin)];
      try reflexivity; try (locate Hin; fail) ].
  - (* a defective answer is not well formed *)
    locate Hin. injection Hin as _ <-.
    rewrite collect_spec, Hwf in Hcollect. discriminate.
  - (* not found *)
    apply collect_returned in Hcollect as (Hwf & Hids & _).
    left. exists (lookup_request TagNodeName m), out.
    split; [simpl; tauto|]. split; [assumption|].
    destruct (instances out) as [|i l] eqn:Hi; [reflexivity|].
    exfalso. apply (instance_ids_nonempty out Hwf); [now rewrite Hi|].
    now rewrite Hi in *.
  - (* a failed termination had instances to terminate *)
    locate Hin. injection Hin as _ <-.
    apply collect_returned in Hcollect as (_ & -> & _).
    rewrite Hnone in Hfound. now contradiction Hfound.
  - right. exists (terminate_request instanceIDS). simpl. tauto.
Qed.


(** X6.  [Run] returns an error in exactly three cases: [getSvc] gave an
    error, the lookup gave an error, or the termination request gave an
    error. *)
Theorem Run_fails_iff s ctx w m :
  let run := Run TagNodeName ErrAuthorization_text ErrDeleteNode_text s ctx w m in
  (exists err, fst (fst run) = Returned (Some err))
  <-> (exists svc e, getSvc s (AWSConfig (config m)) = (svc, Some e))
      \/ (exists input output e,
             In (DescribeInstances input output (Some e)) (snd run))
      \/ (exists request e, In (TerminateInstances request (Some e)) (snd run)).
Proof.
  cbv zeta.
  destruct (Run TagNodeName ErrAuthorization_text ErrDeleteNode_text s ctx w m)
    as [[o m'] tr] eqn:Hrun.
  simpl. run_paths Hrun.
  all: split;
    [ intros [err' Ho]; try discriminate Ho
    | intros [(svc' & e' & Hsvc)
             | [(input & output' & e' & Hin) | (request & e' & Hin)]];
      first [ solve [eexists; reflexivity]
            | congruence
            | locate Hin; fail
            | destruct err; locate Hin; fail ] ].
  - left. eauto.
  - right; left. exists (lookup_request TagNodeName m), output, e.
    simpl. tauto.
  - right; right. exists (terminate_request instanceIDS), e. simpl. tauto.
Qed.

(** *** The collecting loops, seen from outside *)

Lemma length_present_le {A : Type} (l : list (option A)) :
  length (present l) <= length l.
Proof.
  induction l as [|[a|] l IH]; simpl; lia.
Qed.

Lemma well_formed_ids (out : ec2.DescribeInstancesOutput) :
  well_formed out = true ->
  map Some (instance_ids (instances out)) = map ec2.InstanceId (instances out).
Proof.
  intros Hwf.
  assert (Hall : forall i, In i (instances out) ->
                           exists id, ec2.InstanceId i = Some id)
    by (intros i; now apply well_formed_identified).
  unfold instance_ids. induction (instances out) as [|i l IH]; [reflexivity|].
  destruct (Hall i (or_introl eq_refl)) as [id Hid].
  simpl. rewrite Hid. simpl. f_equal.
  apply IH. intros j Hj. apply Hall. now right.
Qed.

Lemma collect_lengths (out : ec2.DescribeInstancesOutput)
  (ids spots : list string) :
  collect (ec2.Reservations out) = Returned (ids, spots) ->
  length ids = length (instances out) /\ length spots <= length ids.
Proof.
  intros Hc. apply collect_returned in Hc as (Hwf & -> & ->).
  assert (Hlen : length (instance_ids (instances out)) = length (instances out)).
  { rewrite <- (length_map Some), (well_formed_ids out Hwf). apply length_map. }
  split; [assumption|].
  rewrite Hlen. unfold spot_request_ids.
  rewrite <- (length_map ec2.SpotInstanceRequestId (instances out)).
  apply length_present_le.
Qed.

(** X7.  When the loops over a lookup answer end without panic, the
    collected instance identifiers are the identifiers of the instance
    records in the order of the answer, one per record (a record that comes
    twice is collected twice), and the collected spot-request identifiers
    are never more than the instance identifiers. *)
Theorem collect_one_id_per_record (out : ec2.DescribeInstancesOutput)
  (ids spots : list string) :
  collect (ec2.Reservations out) = Returned (ids, spots) ->
  map Some ids = map ec2.InstanceId (instances out)
  /\ length ids = length (instances out)
  /\ length spots <= length ids.
Proof.
  intros Hc. split; [|now apply collect_lengths].
  apply collect_returned in Hc as (Hwf & -> & _).
  now apply well_formed_ids.
Qed.

(** X8.  The loops do not see how the provider groups the instances into
    reservations: two well-formed answers with the same instance records in
    the same order give the same two slices. *)
Theorem collect_ignores_grouping (out1 out2 : ec2.DescribeInstancesOutput) :
  well_formed out1 = true ->
  well_formed out2 = true ->
  instances out1 = instances out2 ->
  collect (ec2.Reservations out1) = collect (ec2.Reservations out2).
Proof.
  intros Hwf1 Hwf2 Hsame.
  rewrite !collect_spec, Hwf1, Hwf2, Hsame. reflexivity.
Qed.

(** *** What the requests hold *)

(** X9.  A termination request that a run sends names at least one instance
    and holds no [nil] pointer; a spot-cancellation request of the same run
    holds no [nil] pointer and not more identifiers than the termination
    request. *)
Theorem Run_requests_hold_no_nil s ctx w m o m' tr request e :
  Run TagNodeName ErrAuthorization_text ErrDeleteNode_text s ctx w m
  = (o, m', tr) ->
  In (TerminateInstances request e) tr ->
  ec2.InstanceIds request <> []
  /\ ~ In None (ec2.InstanceIds request)
  /\ forall cancel e',
       In (CancelSpotInstanceRequests cancel e') tr ->
       ~ In None (ec2.SpotInstanceRequestIds cancel)
       /\ length (ec2.SpotInstanceRequestIds cancel)
          <= length (ec2.InstanceIds request).
Proof.
  intros Hrun Hin.
  assert (Hno : forall l : list string, ~ In None (map Some l)).
  { intros l H. apply in_map_iff in H as [x [Hx _]]. discriminate. }
  run_paths Hrun; try (locate Hin; fail).
  - locate Hin. injection Hin as <- _.
    split; [destruct instanceIDS; [now contradiction Hfound | discriminate]|].
    split; [apply Hno|].
    intros cancel e' Hc. locate Hc.
  - assert (Hreq : request = terminate_request instanceIDS)
      by (destruct err; locate Hin; now injection Hin as <- _).
    subst request. clear Hin.
    split; [destruct instanceIDS; [now contradiction Hfound | discriminate]|].
    split; [apply Hno|].
    intros cancel e' Hc.
    assert (Hcancel : cancel = cancel_request spotRequestIDs)
      by (destruct err; locate Hc; now injection Hc as <- _).
    subst cancel. split; [apply Hno|].
    simpl. rewrite !length_map.
    now apply (collect_lengths out).
Qed.

(** *** The caller's output sink *)

(** X10.  The logger over the caller's output sink is written to exactly
    when the termination request succeeded, and then with the one line
    "finished successfully"; a run that finds no instance succeeds without a
    line on the sink. *)
Theorem Run_writes_sink_iff s ctx w m w' lvl format args :
  let tr :=
    snd (Run TagNodeName ErrAuthorization_text ErrDeleteNode_text s ctx w m) in
  In (Logged (SinkLogger w') lvl format args) tr
  <-> Logged (SinkLogger w') lvl format args
      = Logged (SinkLogger w) Info "[%s] - finished successfully"
          [ArgString "aws_delete_node"]
      /\ exists request, In (TerminateInstances request None) tr.
Proof.
  cbv zeta.
  destruct (Run TagNodeName ErrAuthorization_text ErrDeleteNode_text s ctx w m)
    as [[o m'] tr] eqn:Hrun.
  simpl. run_paths Hrun.
  all: split;
    [ intros Hin; try (locate Hin; fail)
    | intros [Heq (request & Hin)]; try (locate Hin; fail) ].
  - split.
    + destruct err; locate Hin; now rewrite <- Hin.
    + exists (terminate_request instanceIDS). simpl. tauto.
  - rewrite Heq. apply in_or_app. right. apply in_or_app. right. now left.
Qed.

(** *** What the returned errors keep of the provider's error *)

(** X11.  The error returned for a failed termination keeps the provider's
    error as its cause: [errors.Cause] of the returned error is
    [errors.Cause] of the provider's error, so a test by cause answers for
    the returned error as it does for the provider's. *)
Theorem Run_terminate_failure_keeps_cause s ctx w m o m' tr request e :
  Run TagNodeName ErrAuthorization_text ErrDeleteNode_text s ctx w m
  = (o, m', tr) ->
  In (TerminateInstances request (Some e)) tr ->
  exists err,
    o = Returned (Some err)
    /\ errors.Cause err = errors.Cause e
    /\ is_authorization err = is_authorization e
    /\ is_lookup_failure err = is_lookup_failure e.
Proof.
  intros Hrun Hin.
  run_paths Hrun; try (locate Hin; fail).
  - locate Hin. injection Hin as _ <-.
    eexists. repeat split.
  - destruct err; locate Hin.
Qed.

(** X12.  The error returned for a failed lookup keeps the provider's error
    as text only: it is [ErrDeleteNode] wrapped with the text of the
    provider's error as message, so its text is the provider's text, then
    that of [ErrDeleteNode], and the memory holds the state the lookup left
    behind the provider. *)
Theorem Run_lookup_failure_text s ctx w m o m' tr input output e :
  Run TagNodeName ErrAuthorization_text ErrDeleteNode_text s ctx w m
  = (o, m', tr) ->
  In (DescribeInstances input output (Some e)) tr ->
  o = Returned
        (errors.Wrap (Some ErrDeleteNode)
           (Error ErrAuthorization_text ErrDeleteNode_text e))
  /\ (exists err,
        o = Returned (Some err)
        /\ Error ErrAuthorization_text ErrDeleteNode_text err
           = (Error ErrAuthorization_text ErrDeleteNode_text e
              ++ ": " ++ ErrDeleteNode_text)%string)
  /\ provider_calls tr = [DescribeInstances input output (Some e)].
Proof.
  intros Hrun Hin.
  run_paths Hrun; try (locate Hin; fail).
  - locate Hin. injection Hin as <- <- <-.
    repeat split. eexists. split; reflexivity.
  - destruct err; locate Hin.
Qed.

(** X13.  When [getSvc] gives an error [e], [Run] logs the start and the
    error, returns [ErrAuthorization] wrapped with the text of [e], and
    leaves the memory, the state behind the provider included, as it
    was. *)
Theorem Run_unauthorized s ctx w m svc e :
  getSvc s (AWSConfig (config m)) = (svc, Some e) ->
  Run TagNodeName ErrAuthorization_text ErrDeleteNode_text s ctx w m
  = (Returned
       (errors.Wrap (Some ErrAuthorization)
          (Error ErrAuthorization_text ErrDeleteNode_text e)),
     m,
     [Logged Logrus Info "[%s] - deleting node %s"
        [ArgString (Name s); ArgString (Node_Name (config m))];
      Logged Logrus Err "Error getting service %v" [ArgError e]]).
Proof.
  intros Hsvc.
  destruct (Run TagNodeName ErrAuthorization_text ErrDeleteNode_text s ctx w m)
    as [[o m'] tr] eqn:Hrun.
  run_paths Hrun; try congruence.
  assert (e0 = e) by congruence. now subst.
Qed.

End Properties.

(** ** The scenarios of the step's description, run on the test double *)

(** One spot instance found for "worker-3": it is terminated, its spot
    request is cancelled, and the step succeeds. *)
Example Run_worker_3 :
  let run :=
    Run "Name" "authorization" "delete node"
      (fake_step (fake_ec2 (Some (answer [spot_instance]), None) None None))
      tt 0 (worker "worker-3") in
  fst (fst run) = Returned None
  /\ provider_calls (snd run)
     = [DescribeInstances (lookup_request "Name" (worker "worker-3"))
          (Some (answer [spot_instance])) None;
        TerminateInstances {| ec2.InstanceIds := [Some "i-1"] |} None;
        CancelSpotInstanceRequests
          {| ec2.SpotInstanceRequestIds := [Some "sir-1"] |} None].
Proof. split; reflexivity. Qed.

(** Nothing found for "worker-9": the lookup is the only call. *)
Example Run_worker_9 :
  let run :=
    Run "Name" "authorization" "delete node"
      (fake_step (fake_ec2 (Some (answer []), None) None None))
      tt 0 (worker "worker-9") in
  fst (fst run) = Returned None
  /\ provider_calls (snd run)
     = [DescribeInstances (lookup_request "Name" (worker "worker-9"))
          (Some (answer [])) None].
Proof. split; reflexivity. Qed.

(** A step built by [NewDeleteNode] wraps the error of the client's
    constructor twice, once in [getSvc] and once in [Run]. *)
Example Run_NewDeleteNode_unauthorized :
  fst (fst (Run "Name" "authorization" "delete node"
              (NewDeleteNode "authorization" "delete node"
                 (fun _ : string =>
                    (@None (instanceDeleter unit nat),
                     Some (errorString "no credentials"))))
              tt 0 (worker "worker-3")))
  = Returned
      (Some (withMessage ErrAuthorization "no credentials: authorization")).
Proof. reflexivity. Qed.

(** ** The theorems at work on the test double *)

Lemma Run_absent_node_succeeds_witness :
  let run :=
    Run "Name" "authorization" "delete node"
      (fake_step (fake_ec2 (Some (answer []), None) None None))
      tt 0 (worker "worker-9") in
  fst (fst run) = Returned None
  /\ terminate_requests (snd run) = []
  /\ cancel_requests (snd run) = [].
Proof.
  intros run.
  apply (Run_absent_node_succeeds "Name" "authorization" "delete node"
           (fake_step (fake_ec2 (Some (answer []), None) None None))
           tt 0 (worker "worker-9") _ (snd (fst run)) _
           (lookup_request "Name" (worker "worker-9")) (answer [])).
  - reflexivity.
  - simpl. auto 10.
  - reflexivity.
  - reflexivity.
Defined.

Lemma Run_terminates_found_instances_witness :
  exists request,
    terminate_requests
      (snd (Run "Name" "authorization" "delete node"
              (fake_step
                 (fake_ec2 (Some (answer [spot_instance; plain_instance]), None)
                    None None))
              tt 0 (worker "worker-3")))
    = [request]
    /\ request
       = terminate_request
           (instance_ids (instances (answer [spot_instance; plain_instance])))
    /\ forall id,
         In (Some id) (ec2.InstanceIds request)
         <-> exists i,
             In i (instances (answer [spot_instance; plain_instance]))
             /\ ec2.InstanceId i = Some id.
Proof.
  apply (Run_terminates_found_instances "Name" "authorization" "delete node"
           (fake_step
              (fake_ec2 (Some (answer [spot_instance; plain_instance]), None)
                 None None))
           tt 0 (worker "worker-3") (Returned None) (after (worker "worker-3") 3) _
           (lookup_request "Name" (worker "worker-3"))
           (answer [spot_instance; plain_instance])).
  - reflexivity.
  - simpl. auto 10.
  - reflexivity.
  - simpl. discriminate.
Defined.

Lemma Run_cancel_failure_is_not_fatal_witness :
  let run :=
    Run "Name" "authorization" "delete node"
      (fake_step
         (fake_ec2 (Some (answer [spot_instance]), None) None (Some transient)))
      tt 0 (worker "worker-3") in
  fst (fst run) = Returned None
  /\ forall cancel e,
       In (CancelSpotInstanceRequests cancel (Some e)) (snd run) ->
       In (Logged Logrus Err "cancel spot requests caused %v" [ArgError e])
         (snd run).
Proof.
  intros run.
  apply (Run_cancel_failure_is_not_fatal "Name" "authorization" "delete node"
           (fake_step
              (fake_ec2 (Some (answer [spot_instance]), None) None
                 (Some transient)))
           tt 0 (worker "worker-3") _ (snd (fst run)) _
           (terminate_request ["i-1"])).
  - reflexivity.
  - simpl. auto 10.
Defined.

Lemma Run_terminate_failure_is_fatal_witness :
  let s :=
    fake_step
      (fake_ec2 (Some (answer [spot_instance]), None) (Some transient) None) in
  let run :=
    Run "Name" "authorization" "delete node" s tt 0 (worker "worker-3") in
  fst (fst run)
  = Returned (errors.Wrapf (Some transient) (Name s ++ " terminate instance"))
  /\ (exists err,
        fst (fst run) = Returned (Some err)
        /\ Error "authorization" "delete node" err
           = ("aws_delete_node terminate instance: "
              ++ Error "authorization" "delete node" transient)%string)
  /\ ec2.InstanceIds (terminate_request ["i-1"]) <> []
  /\ cancel_requests (snd run) = [].
Proof.
  intros s run.
  apply (Run_terminate_failure_is_fatal "Name" "authorization" "delete node"
           s tt 0 (worker "worker-3") _ (snd (fst run)) _
           (terminate_request ["i-1"]) transient).
  - reflexivity.
  - simpl. auto 10.
Defined.

Lemma Run_fails_before_mutation_witness :
  (exists err,
      fst (fst (Run "Name" "authorization" "delete node"
                  (unauthorized_step (errorString "no credentials"))
                  tt 0 (worker "worker-3")))
      = Returned (Some err)
      /\ errors.Cause err = ErrAuthorization
      /\ is_authorization err = true /\ is_lookup_failure err = false
      /\ provider_calls
           (snd (Run "Name" "authorization" "delete node"
                   (unauthorized_step (errorString "no credentials"))
                   tt 0 (worker "worker-3")))
         = [])
  /\ (exists err,
      fst (fst (Run "Name" "authorization" "delete node"
                  (fake_step (fake_ec2 (None, Some transient) None None))
                  tt 0 (worker "worker-3")))
      = Returned (Some err)
      /\ errors.Cause err = ErrDeleteNode
      /\ is_lookup_failure err = true /\ is_authorization err = false
      /\ terminate_requests
           (snd (Run "Name" "authorization" "delete node"
                   (fake_step (fake_ec2 (None, Some transient) None None))
                   tt 0 (worker "worker-3")))
         = []
      /\ cancel_requests
           (snd (Run "Name" "authorization" "delete node"
                   (fake_step (fake_ec2 (None, Some transient) None None))
                   tt 0 (worker "worker-3")))
         = []).
Proof.
  split.
  - apply (proj1 (Run_fails_before_mutation "Name" "authorization" "delete node"
                    (unauthorized_step (errorString "no credentials"))
                    tt 0 (worker "worker-3") _ (worker "worker-3") _ eq_refl)
             None (errorString "no credentials")).
    reflexivity.
  - apply (proj2 (Run_fails_before_mutation "Name" "authorization" "delete node"
                    (fake_step (fake_ec2 (None, Some transient) None None))
                    tt 0 (worker "worker-3") _ (after (worker "worker-3") 1) _
                    eq_refl)
             (lookup_request "Name" (worker "worker-3")) None transient).
    simpl. auto 10.
Defined.

Lemma Run_cancels_spot_requests_witness :
  exists out cancel,
    In (DescribeInstances (lookup_request "Name" (worker "worker-3"))
          (Some out) None)
      (snd (Run "Name" "authorization" "delete node"
              (fake_step
                 (fake_ec2 (Some (answer [spot_instance; plain_instance]), None)
                    None None))
              tt 0 (worker "worker-3")))
    /\ cancel_requests
         (snd (Run "Name" "authorization" "delete node"
                 (fake_step
                    (fake_ec2
                       (Some (answer [spot_instance; plain_instance]), None)
                       None None))
                 tt 0 (worker "worker-3")))
       = [cancel]
    /\ cancel = cancel_request (spot_request_ids (instances out))
    /\ (forall sid,
          In (Some sid) (ec2.SpotInstanceRequestIds cancel)
          <-> exists i,
              In i (instances out) /\ ec2.SpotInstanceRequestId i = Some sid)
    /\ ((forall i, In i (instances out) -> ec2.SpotInstanceRequestId i = None) ->
        ec2.SpotInstanceRequestIds cancel = []).
Proof.
  apply (Run_cancels_spot_requests "Name" "authorization" "delete node"
           (fake_step
              (fake_ec2 (Some (answer [spot_instance; plain_instance]), None)
                 None None))
           tt 0 (worker "worker-3") (Returned None)
           (after (worker "worker-3") 3) _ (terminate_request ["i-1"; "i-2"])).
  - reflexivity.
  - simpl. auto 10.
Defined.

Lemma Run_is_deterministic_witness :
  let s :=
    fake_step
      (fake_ec2 (Some (answer [spot_instance]), None) None (Some transient)) in
  fst (fst (Run "Name" "authorization" "delete node" s tt 0 (worker "worker-3")))
  = fst (fst (Run "Name" "authorization" "delete node" s tt 0
                (after (worker "worker-3") 7)))
  /\ provider_calls
       (snd (Run "Name" "authorization" "delete node" s tt 0 (worker "worker-3")))
     = provider_calls
         (snd (Run "Name" "authorization" "delete node" s tt 0
                 (after (worker "worker-3") 7))).
Proof.
  intros s.
  apply (Run_is_deterministic "Name" "authorization" "delete node"
           s tt 0 (worker "worker-3") (after (worker "worker-3") 7)).
  - reflexivity.
  - intros svc e Hsvc. injection Hsvc as <- _.
    repeat split; reflexivity.
Defined.

Lemma Run_looks_up_by_node_name_witness :
  lookup_request "Name" (worker "worker-3")
  = {| ec2.Filters :=
         [Some {| ec2.Name := Some "tag:Name";
                  ec2.Values := [Some "worker-3"] |}] |}.
Proof.
  eapply (Run_looks_up_by_node_name "Name" "authorization" "delete node"
           (fake_step (fake_ec2 (Some (answer [spot_instance]), None) None None))
           tt 0 (worker "worker-3") (Returned None)
           (after (worker "worker-3") 3) _
           (lookup_request "Name" (worker "worker-3"))
           (Some (answer [spot_instance])) None).
  - reflexivity.
  - simpl. auto 10.
Defined.

Lemma Run_NewDeleteNode_refused_witness :
  exists err,
    Run "Name" "authorization" "delete node"
      (NewDeleteNode "authorization" "delete node"
         (refusing (errorString "no credentials")))
      tt 0 (worker "worker-3")
    = (Returned (Some err), worker "worker-3",
       [log_deleting (worker "worker-3");
        log_no_service (withMessage ErrAuthorization "no credentials")])
    /\ errors.Cause err = ErrAuthorization
    /\ Error "authorization" "delete node" err
       = "no credentials: authorization: authorization".
Proof.
  apply (Run_NewDeleteNode_refused "Name" "authorization" "delete node"
           (refusing (errorString "no credentials")) tt 0 (worker "worker-3")
           None (errorString "no credentials")).
  reflexivity.
Defined.

Lemma Run_NewDeleteNode_granted_witness :
  Run "Name" "authorization" "delete node"
    (NewDeleteNode "authorization" "delete node"
       (granting (fake_ec2 (Some (answer [spot_instance]), None) None None)))
    tt 0 (worker "worker-3")
  = Run "Name" "authorization" "delete node"
      {| getSvc :=
           granting (fake_ec2 (Some (answer [spot_instance]), None) None None) |}
      tt 0 (worker "worker-3").
Proof.
  apply (Run_NewDeleteNode_granted "Name" "authorization" "delete node"
           (granting (fake_ec2 (Some (answer [spot_instance]), None) None None))
           tt 0 (worker "worker-3")).
  reflexivity.
Defined.

Lemma collect_one_id_per_record_witness :
  map Some ["i-1"; "i-2"; "i-1"]
  = map ec2.InstanceId
      (instances (answer [spot_instance; plain_instance; spot_instance]))
  /\ length ["i-1"; "i-2"; "i-1"]
     = length (instances (answer [spot_instance; plain_instance; spot_instance]))
  /\ length ["sir-1"; "sir-1"] <= length ["i-1"; "i-2"; "i-1"].
Proof.
  apply (collect_one_id_per_record
           (answer [spot_instance; plain_instance; spot_instance])
           ["i-1"; "i-2"; "i-1"] ["sir-1"; "sir-1"]).
  reflexivity.
Defined.

Lemma collect_ignores_grouping_witness :
  collect (ec2.Reservations (answer [spot_instance; plain_instance]))
  = collect (ec2.Reservations (scattered_answer [spot_instance; plain_instance])).
Proof.
  apply (collect_ignores_grouping (answer [spot_instance; plain_instance])
           (scattered_answer [spot_instance; plain_instance]));
    reflexivity.
Defined.

Lemma Run_requests_hold_no_nil_witness :
  let run :=
    Run "Name" "authorization" "delete node"
      (fake_step
         (fake_ec2 (Some (answer [spot_instance; plain_instance]), None)
            None None))
      tt 0 (worker "worker-3") in
  ec2.InstanceIds (terminate_request ["i-1"; "i-2"]) <> []
  /\ ~ In None (ec2.InstanceIds (terminate_request ["i-1"; "i-2"]))
  /\ forall cancel e',
       In (CancelSpotInstanceRequests cancel e') (snd run) ->
       ~ In None (ec2.SpotInstanceRequestIds cancel)
       /\ length (ec2.SpotInstanceRequestIds cancel)
          <= length (ec2.InstanceIds (terminate_request ["i-1"; "i-2"])).
Proof.
  intros run.
  apply (Run_requests_hold_no_nil "Name" "authorization" "delete node"
           (fake_step
              (fake_ec2 (Some (answer [spot_instance; plain_instance]), None)
                 None None))
           tt 0 (worker "worker-3") (fst (fst run)) (snd (fst run)) _
           (terminate_request ["i-1"; "i-2"]) None).
  - reflexivity.
  - simpl. auto 10.
Defined.

Lemma Run_terminate_failure_keeps_cause_witness :
  exists err,
    fst (fst (Run "Name" "authorization" "delete node"
                (fake_step
                   (fake_ec2 (Some (answer [spot_instance]), None)
                      (Some (withMessage ErrDeleteNode "gone")) None))
                tt 0 (worker "worker-3")))
    = Returned (Some err)
    /\ errors.Cause err = errors.Cause (withMessage ErrDeleteNode "gone")
    /\ is_authorization err = is_authorization (withMessage ErrDeleteNode "gone")
    /\ is_lookup_failure err
       = is_lookup_failure (withMessage ErrDeleteNode "gone").
Proof.
  eapply (Run_terminate_failure_keeps_cause "Name" "authorization" "delete node"
           (fake_step
              (fake_ec2 (Some (answer [spot_instance]), None)
                 (Some (withMessage ErrDeleteNode "gone")) None))
           tt 0 (worker "worker-3") _ (after (worker "worker-3") 2) _
           (terminate_request ["i-1"]) (withMessage ErrDeleteNode "gone")).
  - reflexivity.
  - simpl. auto 10.
Defined.

Lemma Run_lookup_failure_text_witness :
  let run :=
    Run "Name" "authorization" "delete node"
      (fake_step (fake_ec2 (None, Some transient) None None))
      tt 0 (worker "worker-3") in
  fst (fst run)
  = Returned
      (errors.Wrap (Some ErrDeleteNode)
         (Error "authorization" "delete node" transient))
  /\ (exists err,
        fst (fst run) = Returned (Some err)
        /\ Error "authorization" "delete node" err
           = (Error "authorization" "delete node" transient
              ++ ": " ++ "delete node")%string)
  /\ provider_calls (snd run)
     = [DescribeInstances (lookup_request "Name" (worker "worker-3")) None
          (Some transient)].
Proof.
  intros run.
  apply (Run_lookup_failure_text "Name" "authorization" "delete node"
           (fake_step (fake_ec2 (None, Some transient) None None))
           tt 0 (worker "worker-3") _ (snd (fst run)) _
           (lookup_request "Name" (worker "worker-3")) None transient).
  - reflexivity.
  - simpl. auto 10.
Defined.

Lemma Run_unauthorized_witness :
  Run "Name" "authorization" "delete node"
    (unauthorized_step (errorString "no credentials")) tt 0 (worker "worker-3")
  = (Returned
       (errors.Wrap (Some ErrAuthorization)
          (Error "authorization" "delete node" (errorString "no credentials"))),
     worker "worker-3",
     [Logged Logrus Info "[%s] - deleting node %s"
        [ArgString (Name (unauthorized_step (errorString "no credentials")));
         ArgString (Node_Name (config (worker "worker-3")))];
      Logged Logrus Err "Error getting service %v"
        [ArgError (errorString "no credentials")]]).
Proof.
  apply (Run_unauthorized "Name" "authorization" "delete node"
           (unauthorized_step (errorString "no credentials"))
           tt 0 (worker "worker-3") None (errorString "no credentials")).
  reflexivity.
Defined.
